(** * ExamPrep API (src/main.py): content catalog and solver dispatch

    A shallow embedding of the FastAPI application of [src/main.py]:
    the static [TOPICS] catalog, the three handlers [list_topics],
    [get_samples] and [solve], and the part of Python's data model the
    handlers run on (JSON-decoded values, [int] and [float] arithmetic,
    f-string formatting, exceptions).

    Modelling conventions.
    - A Python [int] is a [Z]; a Python [float] is an IEEE-754 binary64
      number, taken from the standard library's [SpecFloat] (precision 53,
      [emax] 1024), so rounding, signed zeros, infinities and NaN are the
      ones of the machine.
    - A raised exception is a value of [exn]; a handler returns
      [result A], either [Ok a] or [Raise e].  [HTTPException] carries its
      status code and its detail string.
    - Python [str] is modelled on ASCII text.
    - [x ** 2] and [x ** 0.5] call the C library's [pow]; it is taken as
      correctly rounded, which makes them the IEEE square and square root.
    - Integers print in full: the interpreter's limit on the digits of an
      int-to-str conversion ([sys.set_int_max_str_digits]) is taken as
      switched off.
    - [solve] is the body of the handler: it takes the request object as
      pydantic built it, and compares [topic] as a string, as the source
      does. *)

From Stdlib Require Import ZArith String Ascii List Lia Bool.
From Stdlib Require Import Floats.SpecFloat.
From stdpp Require Import base option gmap strings pretty list.

Set Warnings "-register-all".
Open Scope Z_scope.

(** ** Python floats *)

Module PyFloat.

Definition prec : Z := 53.
Definition emax : Z := 1024.

Definition fadd := SFadd prec emax.
Definition fsub := SFsub prec emax.
Definition fmul := SFmul prec emax.
Definition fdiv := SFdiv prec emax.
Definition fsqrt := SFsqrt prec emax.

Definition is_nan (x : spec_float) : bool :=
  match x with S754_nan => true | _ => false end.

Definition is_inf (x : spec_float) : bool :=
  match x with S754_infinity _ => true | _ => false end.

Definition is_finite (x : spec_float) : bool :=
  match x with S754_zero _ | S754_finite _ _ _ => true | _ => false end.

Definition sign_bit (x : spec_float) : bool :=
  match x with
  | S754_zero s | S754_infinity s | S754_finite s _ _ => s
  | S754_nan => false
  end.

(** The double nearest to the integer [n] (ties to even); an infinity when
    [n] is beyond the range of a double. *)
Definition of_Z (n : Z) : spec_float := binary_normalize prec emax n 0 false.

(** The double nearest to the quotient [a / b] of two integers, [b <> 0]:
    both operands enter the division exactly, as mantissas of exponent 0,
    and the quotient is rounded once. *)
Definition div_Z (a b : Z) : spec_float :=
  match a with
  | Z0 => S754_zero (b <? 0)
  | _ => fdiv (S754_finite (a <? 0) (Z.to_pos (Z.abs a)) 0)
              (S754_finite (b <? 0) (Z.to_pos (Z.abs b)) 0)
  end.

(** The integer part of a finite double, rounding toward zero. *)
Definition trunc (x : spec_float) : Z :=
  match x with
  | S754_finite s m e =>
      let a := if 0 <=? e then Z.pos m * 2 ^ e else Z.pos m / 2 ^ (- e) in
      if s then - a else a
  | _ => 0
  end.

(** *** Decimal output

    [repr] gives the shortest decimal string that reads back as the same
    double, in Python's layout ([float.__repr__]); [format_f3] is the
    format specification [.3f]. *)

(** [k] such that [10^(k-1) <= xn / xd < 10^k], for positive [xn], [xd]. *)
Definition ge_pow10 (xn xd k : Z) : bool :=
  if 0 <=? k then xd * 10 ^ k <=? xn else xd <=? xn * 10 ^ (- k).

Fixpoint exp10_up (fuel : nat) (xn xd k : Z) : Z :=
  match fuel with
  | O => k
  | S fuel' => if ge_pow10 xn xd k then exp10_up fuel' xn xd (k + 1) else k
  end.

Fixpoint exp10_down (fuel : nat) (xn xd k : Z) : Z :=
  match fuel with
  | O => k
  | S fuel' => if ge_pow10 xn xd (k - 1) then k else exp10_down fuel' xn xd (k - 1)
  end.

Definition exp10 (xn xd : Z) : Z :=
  exp10_down 400 xn xd (exp10_up 400 xn xd 0).

Fixpoint strip_zeros (fuel : nat) (d : Z) : Z :=
  match fuel with
  | O => d
  | S fuel' => if (0 <? d) && (d mod 10 =? 0) then strip_zeros fuel' (d / 10) else d
  end.

(** The candidates with [n] significant digits around [x / den]: the
    rounding interval of the double is [[l / den, h / den]], closed when
    the mantissa is even. *)
Definition candidate (x l h den : Z) (incl : bool) (k n : Z) : option Z :=
  let sh := k - n in
  let sn := if 0 <=? sh then 10 ^ sh else 1 in
  let sd := if 0 <=? sh then 1 else 10 ^ (- sh) in
  let dlo := (x * sd) / (sn * den) in
  let dhi := dlo + 1 in
  let inside d :=
    let v := d * sn * den in
    if incl then (l * sd <=? v) && (v <=? h * sd)
    else (l * sd <? v) && (v <? h * sd) in
  let dl := x * sd - dlo * sn * den in
  let dh := dhi * sn * den - x * sd in
  match inside dlo, inside dhi with
  | true, true =>
      Some (if dl <? dh then dlo else if dh <? dl then dhi
            else if Z.even dlo then dlo else dhi)
  | true, false => Some dlo
  | false, true => Some dhi
  | false, false => None
  end.

Fixpoint shortest_from (fuel : nat) (x l h den : Z) (incl : bool) (k n : Z)
  : Z * Z :=
  match fuel with
  | O => (0, k)
  | S fuel' =>
      match candidate x l h den incl k n with
      | Some d => (strip_zeros 20 d, if 10 ^ n <=? d then k + 1 else k)
      | None => shortest_from fuel' x l h den incl k (n + 1)
      end
  end.

(** Digits and decimal point position of the shortest representation of
    the positive double [m * 2^e] (canonical mantissa and exponent). *)
Definition shortest (m e : Z) : Z * Z :=
  let lowgap := if (m =? 2 ^ 52) && (-1074 <? e) then 1 else 2 in
  let u := if 0 <=? e - 2 then 2 ^ (e - 2) else 1 in
  let den := if 0 <=? e - 2 then 1 else 2 ^ (2 - e) in
  let x := 4 * m * u in
  shortest_from 17 x ((4 * m - lowgap) * u) ((4 * m + 2) * u) den
    (Z.even m) (exp10 x den) 1.

Fixpoint zeros (n : nat) : string :=
  match n with
  | O => EmptyString
  | S n' => String "0" (zeros n')
  end.

Definition pad_left (width : nat) (s : string) : string :=
  zeros (width - String.length s) +:+ s.

Definition layout_repr (ds : string) (decpt : Z) : string :=
  let len := Z.of_nat (String.length ds) in
  if (decpt <=? -4) || (16 <? decpt) then
    let ex := decpt - 1 in
    let mant :=
      match ds with
      | String c EmptyString => ds
      | String c rest => String c ("." +:+ rest)
      | EmptyString => ds
      end in
    mant +:+ "e" +:+ (if ex <? 0 then "-" else "+")
         +:+ pad_left 2 (pretty (Z.abs ex))
  else if decpt <=? 0 then
    "0." +:+ zeros (Z.to_nat (- decpt)) +:+ ds
  else if len <=? decpt then
    ds +:+ zeros (Z.to_nat (decpt - len)) +:+ ".0"
  else
    substring 0 (Z.to_nat decpt) ds +:+ "."
      +:+ substring (Z.to_nat decpt) (Z.to_nat (len - decpt)) ds.

Definition repr (x : spec_float) : string :=
  match x with
  | S754_nan => "nan"
  | S754_infinity s => if s then "-inf" else "inf"
  | S754_zero s => if s then "-0.0" else "0.0"
  | S754_finite s m e =>
      match binary_round prec emax false m e with
      | S754_finite _ m' e' =>
          let '(d, decpt) := shortest (Z.pos m') e' in
          (if s then "-" else "") +:+ layout_repr (pretty d) decpt
      | _ => if s then "-inf" else "inf"
      end
  end.

Definition format_f3 (x : spec_float) : string :=
  match x with
  | S754_nan => "nan"
  | S754_infinity s => if s then "-inf" else "inf"
  | S754_zero s => if s then "-0.000" else "0.000"
  | S754_finite s m e =>
      let n := if 0 <=? e then Z.pos m * 2 ^ e * 1000 else Z.pos m * 1000 in
      let d := if 0 <=? e then 1 else 2 ^ (- e) in
      let q := n / d in
      let r := n mod d in
      let q' := if (d <? 2 * r) || ((2 * r =? d) && Z.odd q) then q + 1 else q in
      (if s then "-" else "") +:+ pretty (q' / 1000) +:+ "."
        +:+ pad_left 3 (pretty (q' mod 1000))
  end.

End PyFloat.

(** ** Python values, exceptions and builtins *)

Module Py.

(** What a JSON body decodes to.  A [dict] keeps its items in insertion
    order. *)
Inductive value : Type :=
| VNone
| VBool (b : bool)
| VInt (z : Z)
| VFloat (f : spec_float)
| VStr (s : string)
| VList (l : list value)
| VDict (items : list (string * value)).

(** [ComplexPower] is not an exception of Python: it marks the one path
    this model does not follow, a negative float raised to a fractional
    power, whose value is a complex number. *)
Inductive exn : Type :=
| HTTPException (status_code : Z) (detail : string)
| TypeError
| ValueError
| OverflowError
| ZeroDivisionError
| KeyError
| IndexError
| ComplexPower.

Inductive result (A : Type) : Type :=
| Ok (a : A)
| Raise (e : exn).
Arguments Ok {A} a.
Arguments Raise {A} e.

#[global] Instance result_ret : MRet result := fun A a => Ok a.
#[global] Instance result_bind : MBind result := fun A B k m =>
  match m with
  | Ok a => k a
  | Raise e => Raise e
  end.
#[global] Instance result_fmap : FMap result := fun A B f m =>
  match m with
  | Ok a => Ok (f a)
  | Raise e => Raise e
  end.

Definition succeeds {A} (r : result A) : bool :=
  match r with Ok _ => true | Raise _ => false end.

(** *** Reading numbers from text: [int(str)] and [float(str)] *)

Definition is_space (c : ascii) : bool :=
  let n := Z.of_N (N_of_ascii c) in
  ((9 <=? n) && (n <=? 13)) || ((28 <=? n) && (n <=? 32)).

Definition is_digit (c : ascii) : bool :=
  let n := Z.of_N (N_of_ascii c) in (48 <=? n) && (n <=? 57).

Definition digit_val (c : ascii) : Z := Z.of_N (N_of_ascii c) - 48.

Definition lower (c : ascii) : ascii :=
  let n := N_of_ascii c in
  if ((65 <=? n) && (n <=? 90))%N then ascii_of_N (n + 32) else c.

Fixpoint lstrip (s : list ascii) : list ascii :=
  match s with
  | c :: s' => if is_space c then lstrip s' else s
  | [] => []
  end.

Definition strip (s : list ascii) : list ascii :=
  rev (lstrip (rev (lstrip s))).

(** Digits with single underscores between them; [n] counts the digits. *)
Fixpoint digits_go (acc : Z) (n : nat) (s : list ascii) : Z * nat * list ascii :=
  match s with
  | c :: s' =>
      if is_digit c then digits_go (acc * 10 + digit_val c) (S n) s'
      else if Ascii.eqb c "_" then
        match s' with
        | d :: s'' =>
            if is_digit d then digits_go (acc * 10 + digit_val d) (S n) s''
            else (acc, n, s)
        | [] => (acc, n, s)
        end
      else (acc, n, s)
  | [] => (acc, n, [])
  end.

Definition digitpart (s : list ascii) : option (Z * nat * list ascii) :=
  match s with
  | c :: _ => if is_digit c then Some (digits_go 0 0 s) else None
  | [] => None
  end.

Definition take_sign (s : list ascii) : bool * list ascii :=
  match s with
  | c :: s' =>
      if Ascii.eqb c "-" then (true, s')
      else if Ascii.eqb c "+" then (false, s') else (false, s)
  | [] => (false, [])
  end.

Definition int_of_string (s : string) : result Z :=
  let '(neg, body) := take_sign (strip (list_ascii_of_string s)) in
  match digitpart body with
  | Some (n, _, []) => Ok (if neg then - n else n)
  | _ => Raise ValueError
  end.

(** The double nearest to [m * 10^e]. *)
Definition of_decimal (neg : bool) (m e : Z) : spec_float :=
  if m =? 0 then S754_zero neg
  else
    let a := if neg then - m else m in
    if 0 <=? e then PyFloat.of_Z (a * 10 ^ e) else PyFloat.div_Z a (10 ^ (- e)).

Definition exponent_part (s : list ascii) : option Z :=
  match s with
  | [] => Some 0
  | c :: s' =>
      if Ascii.eqb (lower c) "e" then
        let '(neg, body) := take_sign s' in
        match digitpart body with
        | Some (n, _, []) => Some (if neg then - n else n)
        | _ => None
        end
      else None
  end.

Definition decimal_of (s : list ascii) : option (Z * Z) :=
  let '(ip, rest) :=
    match digitpart s with
    | Some (n, _, rest) => (Some n, rest)
    | None => (None, s)
    end in
  let '(fp, rest') :=
    match rest with
    | c :: rest1 =>
        if Ascii.eqb c "." then
          match digitpart rest1 with
          | Some (n, k, rest2) => (Some (Some (n, k)), rest2)
          | None => (Some None, rest1)
          end
        else (None, rest)
    | [] => (None, rest)
    end in
  ex ← exponent_part rest';
  match ip, fp with
  | Some n, None | Some n, Some None => Some (n, ex)
  | Some n, Some (Some (f, k)) => Some (n * 10 ^ Z.of_nat k + f, ex - Z.of_nat k)
  | None, Some (Some (f, k)) => Some (f, ex - Z.of_nat k)
  | None, _ => None
  end.

Definition float_of_string (s : string) : result spec_float :=
  let '(neg, body) := take_sign (strip (list_ascii_of_string s)) in
  let word := string_of_list_ascii (map lower body) in
  if String.eqb word "inf" || String.eqb word "infinity" then Ok (S754_infinity neg)
  else if String.eqb word "nan" then Ok S754_nan
  else
    match decimal_of body with
    | Some (m, e) => Ok (of_decimal neg m e)
    | None => Raise ValueError
    end.

(** *** Conversions: [int(x)] and [float(x)] *)

Definition int_like (v : value) : option Z :=
  match v with
  | VInt z => Some z
  | VBool b => Some (if b then 1 else 0)
  | _ => None
  end.

(** [float(n)] for an integer: OverflowError when [n] has no double. *)
Definition float_of_int (n : Z) : result spec_float :=
  let f := PyFloat.of_Z n in
  if PyFloat.is_inf f then Raise OverflowError else Ok f.

Definition py_int (v : value) : result Z :=
  match v with
  | VInt z => Ok z
  | VBool b => Ok (if b then 1 else 0)
  | VFloat f =>
      if PyFloat.is_nan f then Raise ValueError
      else if PyFloat.is_inf f then Raise OverflowError
      else Ok (PyFloat.trunc f)
  | VStr s => int_of_string s
  | VNone | VList _ | VDict _ => Raise TypeError
  end.

Definition py_float (v : value) : result spec_float :=
  match v with
  | VFloat f => Ok f
  | VInt z => float_of_int z
  | VBool b => Ok (PyFloat.of_Z (if b then 1 else 0))
  | VStr s => float_of_string s
  | VNone | VList _ | VDict _ => Raise TypeError
  end.

(** *** Arithmetic *)

(** [a / b] on two integers: the correctly rounded quotient. *)
Definition int_truediv (a b : Z) : result spec_float :=
  if b =? 0 then Raise ZeroDivisionError
  else
    let q := PyFloat.div_Z a b in
    if PyFloat.is_inf q then Raise OverflowError else Ok q.

(** [x ** 2] on a float: the square, OverflowError when a finite [x] has a
    square beyond the doubles. *)
Definition float_pow2 (x : spec_float) : result spec_float :=
  match x with
  | S754_nan => Ok S754_nan
  | S754_infinity _ => Ok (S754_infinity false)
  | S754_zero _ => Ok (S754_zero false)
  | S754_finite _ _ _ =>
      let y := PyFloat.fmul x x in
      if PyFloat.is_inf y then Raise OverflowError else Ok y
  end.

(** [x ** 0.5] on a float. *)
Definition float_pow_half (x : spec_float) : result spec_float :=
  match x with
  | S754_nan => Ok S754_nan
  | S754_infinity _ => Ok (S754_infinity false)
  | S754_zero _ => Ok (S754_zero false)
  | S754_finite true _ _ => Raise ComplexPower
  | S754_finite false _ _ => Ok (PyFloat.fsqrt x)
  end.

Fixpoint str_repeat (n : nat) (s : string) : string :=
  match n with
  | O => EmptyString
  | S n' => s +:+ str_repeat n' s
  end.

Fixpoint list_repeat {A} (n : nat) (l : list A) : list A :=
  match n with
  | O => []
  | S n' => l ++ list_repeat n' l
  end.

Definition py_mul (a b : value) : result value :=
  match int_like a, int_like b with
  | Some x, Some y => Ok (VInt (x * y))
  | Some n, None =>
      match b with
      | VFloat y => x ← float_of_int n; Ok (VFloat (PyFloat.fmul x y))
      | VStr s => Ok (VStr (str_repeat (Z.to_nat n) s))
      | VList l => Ok (VList (list_repeat (Z.to_nat n) l))
      | _ => Raise TypeError
      end
  | None, Some n =>
      match a with
      | VFloat x => y ← float_of_int n; Ok (VFloat (PyFloat.fmul x y))
      | VStr s => Ok (VStr (str_repeat (Z.to_nat n) s))
      | VList l => Ok (VList (list_repeat (Z.to_nat n) l))
      | _ => Raise TypeError
      end
  | None, None =>
      match a, b with
      | VFloat x, VFloat y => Ok (VFloat (PyFloat.fmul x y))
      | _, _ => Raise TypeError
      end
  end.

Definition py_add (a b : value) : result value :=
  match int_like a, int_like b with
  | Some x, Some y => Ok (VInt (x + y))
  | Some n, None =>
      match b with
      | VFloat y => x ← float_of_int n; Ok (VFloat (PyFloat.fadd x y))
      | _ => Raise TypeError
      end
  | None, Some n =>
      match a with
      | VFloat x => y ← float_of_int n; Ok (VFloat (PyFloat.fadd x y))
      | _ => Raise TypeError
      end
  | None, None =>
      match a, b with
      | VFloat x, VFloat y => Ok (VFloat (PyFloat.fadd x y))
      | VStr s, VStr t => Ok (VStr (s +:+ t))
      | VList l, VList k => Ok (VList (l ++ k))
      | _, _ => Raise TypeError
      end
  end.

(** *** Sequences: [len(x)] and [x[i]] *)

Definition py_len (v : value) : result Z :=
  match v with
  | VList l => Ok (Z.of_nat (length l))
  | VStr s => Ok (Z.of_nat (String.length s))
  | VDict items => Ok (Z.of_nat (length items))
  | VNone | VBool _ | VInt _ | VFloat _ => Raise TypeError
  end.

(** [v[i]] for a literal index [i >= 0].  The keys of a decoded JSON object
    are strings, so an integer key is never found. *)
Definition py_getitem (v : value) (i : nat) : result value :=
  match v with
  | VList l =>
      match l !! i with
      | Some x => Ok x
      | None => Raise IndexError
      end
  | VStr s =>
      match String.get i s with
      | Some c => Ok (VStr (String c EmptyString))
      | None => Raise IndexError
      end
  | VDict _ => Raise KeyError
  | VNone | VBool _ | VInt _ | VFloat _ => Raise TypeError
  end.

(** *** Text: [str(x)], [repr(x)] and format specifications *)

Definition hex_digit (n : N) : ascii :=
  ascii_of_N (if (n <? 10)%N then 48 + n else 87 + n).

Definition contains (c : ascii) (s : string) : bool :=
  existsb (Ascii.eqb c) (list_ascii_of_string s).

Definition backslash : ascii := ascii_of_N 92.
Definition dquote : ascii := ascii_of_N 34.
Definition squote : ascii := ascii_of_N 39.

Fixpoint escape (quote : ascii) (s : string) : string :=
  match s with
  | EmptyString => EmptyString
  | String c s' =>
      let n := N_of_ascii c in
      let out :=
        if Ascii.eqb c quote || Ascii.eqb c backslash then
          String backslash (String c EmptyString)
        else if (n =? 9)%N then String backslash "t"
        else if (n =? 10)%N then String backslash "n"
        else if (n =? 13)%N then String backslash "r"
        else if ((n <? 32) || (n =? 127))%N then
          String backslash
            (String "x" (String (hex_digit (n / 16))
                           (String (hex_digit (n mod 16)) EmptyString)))
        else String c EmptyString in
      out +:+ escape quote s'
  end.

(** [repr] of a string: single quotes, unless the text has a single quote
    and no double quote. *)
Definition repr_str (s : string) : string :=
  let quote := if contains squote s && negb (contains dquote s) then dquote else squote in
  String quote (escape quote s +:+ String quote EmptyString).

Definition join (sep : string) (l : list string) : string :=
  match l with
  | [] => EmptyString
  | x :: l' => fold_left (fun acc y => acc +:+ sep +:+ y) l' x
  end.

Fixpoint py_repr (v : value) : string :=
  match v with
  | VNone => "None"
  | VBool b => if b then "True" else "False"
  | VInt z => pretty z
  | VFloat f => PyFloat.repr f
  | VStr s => repr_str s
  | VList l => "[" +:+ join ", " (map py_repr l) +:+ "]"
  | VDict items =>
      "{" +:+ join ", " (map (fun kv => repr_str kv.1 +:+ ": " +:+ py_repr kv.2) items)
          +:+ "}"
  end.

(** [str(x)], which is also the text of an f-string field [{x}]. *)
Definition py_str (v : value) : string :=
  match v with
  | VStr s => s
  | _ => py_repr v
  end.

End Py.

(** ** The application *)

Module App.
Import Py.

(** *** Content catalog *)

Record sample : Type := {
  id : string;
  question : string;
  sample_data : list (string * value);
  expected : string
}.

Record bucket : Type := {
  description : string;
  samples : list sample
}.

(** The module-level dict [TOPICS]; a Python dict keeps its keys in
    insertion order, which [list(TOPICS.keys())] exposes. *)
Definition catalog : Type := list (string * bucket).

Definition TOPICS : catalog := [
  ("probability",
    {| description := "Basics: equally likely outcomes, simple probabilities, complementary events.";
       samples := [
         {| id := "prob-1";
            question := "A bag contains 3 red and 2 blue balls. What is P(red)?";
            sample_data := [("red", VInt 3); ("blue", VInt 2)];
            expected := "3/5" |} ] |});
  ("coordinate-geometry",
    {| description := "Distance, midpoint, gradients, equation of a line.";
       samples := [
         {| id := "coord-1";
            question := "Find the distance between (1,2) and (4,6).";
            sample_data := [("x1", VInt 1); ("y1", VInt 2); ("x2", VInt 4); ("y2", VInt 6)];
            expected := "5" |} ] |});
  ("calculus",
    {| description := "Derivatives and basic integrals.";
       samples := [
         {| id := "calc-1";
            question := "Differentiate f(x) = 2x^2 + 3x + 1.";
            sample_data := [("a", VInt 2); ("b", VInt 3); ("c", VInt 1)];
            expected := "f'(x) = 4x + 3" |} ] |});
  ("matrices",
    {| description := "2x2 addition and multiplication.";
       samples := [
         {| id := "mat-1";
            question := "Compute A·B where A=[[1,2],[3,4]], B=[[2,0],[1,2]].";
            sample_data := [
              ("A", VList [VList [VInt 1; VInt 2]; VList [VInt 3; VInt 4]]);
              ("B", VList [VList [VInt 2; VInt 0]; VList [VInt 1; VInt 2]])];
            expected := "[[4, 4], [10, 8]]" |} ] |})
].

(** [topic in TOPICS] and [TOPICS[topic]]. *)
Fixpoint lookup_topic (topics : catalog) (topic : string) : option bucket :=
  match topics with
  | [] => None
  | (k, b) :: rest => if decide (k = topic) then Some b else lookup_topic rest topic
  end.

(** [GET /topics]. *)
Definition list_topics (topics : catalog) : list string :=
  map fst topics.

Record samples_response : Type := {
  sr_topic : string;
  sr_description : string;
  sr_samples : list sample
}.

(** [GET /samples/{topic}]. *)
Definition get_samples (topics : catalog) (topic : string) : result samples_response :=
  match lookup_topic topics topic with
  | None => Raise (HTTPException 404 "Unknown topic")
  | Some bucket =>
      Ok {| sr_topic := topic;
            sr_description := bucket.(description);
            sr_samples := bucket.(samples) |}
  end.

(** *** Solver dispatch *)

Record SolveRequest : Type := {
  topic : string;
  sample_id : option string;
  data : option (gmap string value)
}.

(** The dict a solve call returns: [{"topic", "result", "steps"}]. *)
Record solution : Type := {
  sol_topic : string;
  sol_result : value;
  sol_steps : list string
}.

(** [data.get(key, dflt)]. *)
Definition get (d : gmap string value) (key : string) (dflt : value) : value :=
  default dflt (d !! key).

(** [all(len(row) == 2 for row in rows)]: stops at the first row of another
    length, raises at a row without a length. *)
Fixpoint all_len2 (rows : list value) : result bool :=
  match rows with
  | [] => Ok true
  | row :: rest =>
      n ← py_len row;
      if n =? 2 then all_len2 rest else Ok false
  end.

(** [len(A) == len(B) == 2 and all(len(row) == 2 for row in A)
    and all(len(row) == 2 for row in B)], with Python's short circuits. *)
Definition is_2x2 (rowsA rowsB : list value) : result bool :=
  if (length rowsA =? length rowsB)%nat && (length rowsB =? 2)%nat then
    okA ← all_len2 rowsA;
    if okA : bool then all_len2 rowsB else Ok false
  else Ok false.

(** [M[i][j]]. *)
Definition item (M : value) (i j : nat) : result value :=
  row ← py_getitem M i; py_getitem row j.

(** [A[i][0]*B[0][j] + A[i][1]*B[1][j]]. *)
Definition cell (A B : value) (i j : nat) : result value :=
  a0 ← item A i 0; b0 ← item B 0 j; p ← py_mul a0 b0;
  a1 ← item A i 1; b1 ← item B 1 j; q ← py_mul a1 b1;
  py_add p q.

(** [f"cIJ = {A[i][0]}*{B[0][j]} + {A[i][1]}*{B[1][j]} = {c}"]. *)
Definition cell_step (name : string) (A B : value) (i j : nat) (c : value)
  : result string :=
  a0 ← item A i 0; b0 ← item B 0 j;
  a1 ← item A i 1; b1 ← item B 1 j;
  Ok (name +:+ " = " +:+ py_str a0 +:+ "*" +:+ py_str b0 +:+ " + "
           +:+ py_str a1 +:+ "*" +:+ py_str b1 +:+ " = " +:+ py_str c).

(** [POST /solve].  [req.data or {}] is the payload, or the empty dict when
    the payload is absent (or empty). *)
Definition solve (req : SolveRequest) : result solution :=
  let topic := req.(topic) in
  let data := default ∅ req.(data) in
  if decide (topic = "probability") then
    red ← py_int (get data "red" (VInt 0));
    blue ← py_int (get data "blue" (VInt 0));
    let total := red + blue in
    if total =? 0 then
      Raise (HTTPException 400 "Total number of balls must be > 0")
    else
      prob_red ← int_truediv red total;
      let steps := [
        "Identify total outcomes: total = red + blue";
        "Compute total = " +:+ pretty red +:+ " + " +:+ pretty blue
           +:+ " = " +:+ pretty total;
        "Probability of red = red / total";
        "P(red) = " +:+ pretty red +:+ "/" +:+ pretty total
           +:+ " = " +:+ PyFloat.format_f3 prob_red ] in
      Ok {| sol_topic := topic; sol_result := VFloat prob_red; sol_steps := steps |}
  else if decide (topic = "coordinate-geometry") then
    x1 ← py_float (get data "x1" (VInt 0));
    y1 ← py_float (get data "y1" (VInt 0));
    x2 ← py_float (get data "x2" (VInt 0));
    y2 ← py_float (get data "y2" (VInt 0));
    let dx := PyFloat.fsub x2 x1 in
    let dy := PyFloat.fsub y2 y1 in
    dx2 ← float_pow2 dx;
    dy2 ← float_pow2 dy;
    distance ← float_pow_half (PyFloat.fadd dx2 dy2);
    dx2' ← float_pow2 dx;
    dy2' ← float_pow2 dy;
    let steps := [
      "Use distance formula: d = sqrt((x2-x1)^2 + (y2-y1)^2)";
      "dx = " +:+ PyFloat.repr x2 +:+ " - " +:+ PyFloat.repr x1
         +:+ " = " +:+ PyFloat.repr dx;
      "dy = " +:+ PyFloat.repr y2 +:+ " - " +:+ PyFloat.repr y1
         +:+ " = " +:+ PyFloat.repr dy;
      "d = sqrt(" +:+ PyFloat.format_f3 dx2' +:+ " + " +:+ PyFloat.format_f3 dy2'
         +:+ ") = " +:+ PyFloat.format_f3 distance ] in
    Ok {| sol_topic := topic; sol_result := VFloat distance; sol_steps := steps |}
  else if decide (topic = "calculus") then
    a ← py_float (get data "a" (VInt 0));
    b ← py_float (get data "b" (VInt 0));
    let derivative :=
      "f'(x) = " +:+ PyFloat.repr (PyFloat.fmul (PyFloat.of_Z 2) a)
         +:+ "x + " +:+ PyFloat.repr b in
    let steps := [
      "Differentiate ax^2 -> 2ax";
      "Differentiate bx -> b";
      "Sum results";
      derivative ] in
    Ok {| sol_topic := topic; sol_result := VStr derivative; sol_steps := steps |}
  else if decide (topic = "matrices") then
    let A := get data "A" VNone in
    let B := get data "B" VNone in
    match A, B with
    | VList rowsA, VList rowsB =>
        shape ← is_2x2 rowsA rowsB;
        if negb shape then
          Raise (HTTPException 400 "Only 2x2 matrices are supported in this demo")
        else
          c11 ← cell A B 0 0;
          c12 ← cell A B 0 1;
          c21 ← cell A B 1 0;
          c22 ← cell A B 1 1;
          let C := VList [VList [c11; c12]; VList [c21; c22]] in
          s11 ← cell_step "c11" A B 0 0 c11;
          s12 ← cell_step "c12" A B 0 1 c12;
          s21 ← cell_step "c21" A B 1 0 c21;
          s22 ← cell_step "c22" A B 1 1 c22;
          let steps := [ "Compute C = A·B for 2x2 matrices"; s11; s12; s21; s22 ] in
          Ok {| sol_topic := topic; sol_result := C; sol_steps := steps |}
    | _, _ => Raise (HTTPException 400 "A and B must be 2x2 lists")
    end
  else Raise (HTTPException 400 "Unsupported topic").

(** *** The process: handlers over the shared catalog

    [TOPICS] is a module-level object every request handler sees; a
    handler is a step from the catalog before the call to its response and
    the catalog after it. *)

Inductive request : Type :=
| GetRoot
| GetHealth
| GetTopics
| GetSamples (topic : string)
| PostSolve (req : SolveRequest).

Inductive response : Type :=
| RMessage (message : string)
| RStatus (status : string)
| RTopics (topics : list string)
| RSamples (r : samples_response)
| RSolution (r : solution).

Definition handle (topics : catalog) (r : request) : result response * catalog :=
  match r with
  | GetRoot =>
      (Ok (RMessage "Welcome to ExamPrep API for GCSE & HKDSE (minimal demo)."), topics)
  | GetHealth => (Ok (RStatus "ok"), topics)
  | GetTopics => (Ok (RTopics (list_topics topics)), topics)
  | GetSamples topic => (RSamples <$> get_samples topics topic, topics)
  | PostSolve req => (RSolution <$> solve req, topics)
  end.

(** The catalog after serving a sequence of requests. *)
Definition serve (topics : catalog) (rs : list request) : catalog :=
  fold_left (fun t r => (handle t r).2) rs topics.

End App.


(** ** Vocabulary of the specification *)

Module Spec.
Import Py App.

(** The closed set of topic identifiers, in the order of the specification. *)
Definition known_topics : list string :=
  ["probability"; "coordinate-geometry"; "calculus"; "matrices"].

(** The error kinds of the specification, as the handlers signal them:
    [NotFound] is status 404; [InvalidInput] is status 400 with a reason. *)
Definition NotFound (e : exn) : Prop :=
  exists detail, e = HTTPException 404 detail.

Definition InvalidInput (reason : string) (e : exn) : Prop :=
  e = HTTPException 400 reason.

(** A solve request on [topic] with payload [d]. *)
Definition solve_request (topic : string) (sid : option string)
  (d : option (gmap string value)) : SolveRequest :=
  {| topic := topic; sample_id := sid; data := d |}.

(** The payload with exactly the given fields. *)
Definition payload (fields : list (string * value)) : option (gmap string value) :=
  Some (list_to_map fields).

(** The result field of a solve call, or the exception it raised. *)
Definition result_of (r : result solution) : result value :=
  sol_result <$> r.

(** The static sample [calc-1] of the catalog. *)
Definition calc_1 : sample :=
  {| id := "calc-1";
     question := "Differentiate f(x) = 2x^2 + 3x + 1.";
     sample_data := [("a", VInt 2); ("b", VInt 3); ("c", VInt 1)];
     expected := "f'(x) = 4x + 3" |}.


(** The steps of the probability evaluator for counts [red] and [blue] and
    quotient [p]. *)
Definition probability_steps (red blue : Z) (p : spec_float) : list string :=
  [ "Identify total outcomes: total = red + blue";
    "Compute total = " +:+ pretty red +:+ " + " +:+ pretty blue
       +:+ " = " +:+ pretty (red + blue);
    "Probability of red = red / total";
    "P(red) = " +:+ pretty red +:+ "/" +:+ pretty (red + blue)
       +:+ " = " +:+ PyFloat.format_f3 p ].

(** The double -0.5. *)
Definition minus_half : spec_float := S754_finite true 4503599627370496 (-53).

(** Shapes of a matrix argument: a list; a list of lists; a list of exactly
    two lists of exactly two entries. *)
Definition is_list (v : value) : bool :=
  match v with VList _ => true | _ => false end.

Definition is_grid (v : value) : bool :=
  match v with VList rows => forallb is_list rows | _ => false end.

Definition has_len2 (v : value) : bool :=
  match v with VList l => (length l =? 2)%nat | _ => false end.

Definition dims_2x2 (v : value) : bool :=
  match v with
  | VList rows => (length rows =? 2)%nat && forallb has_len2 rows
  | _ => false
  end.

(** The 2x2 grid [[[a, b], [c, d]]], and the grids of integers and of
    floats. *)
Definition grid (a b c d : value) : value :=
  VList [VList [a; b]; VList [c; d]].

Definition int_grid (a b c d : Z) : value :=
  grid (VInt a) (VInt b) (VInt c) (VInt d).


(** The matrix arguments of a payload, [None] being Python's [None] of
    [data.get]. *)
Definition arg (d : option (gmap string value)) (key : string) : value :=
  get (default ∅ d) key VNone.

(** The payload field [key] converts to the float [x] ([float(data.get(key,
    0))] returns [x]); an absent field converts to 0.0. *)
Definition reads_float (d : option (gmap string value)) (key : string)
  (x : spec_float) : Prop :=
  py_float (get (default ∅ d) key (VInt 0)) = Ok x.

(** A JSON number. *)
Definition is_number (v : value) : bool :=
  match v with VInt _ | VFloat _ => true | _ => false end.

(** The square of the finite double [x] is beyond the doubles. *)
Definition sq_overflows (x : spec_float) : bool :=
  PyFloat.is_finite x && PyFloat.is_inf (PyFloat.fmul x x).

(** [sqrt((x2-x1)^2 + (y2-y1)^2)] in double arithmetic. *)
Definition distance (x1 y1 x2 y2 : spec_float) : spec_float :=
  let dx := PyFloat.fsub x2 x1 in
  let dy := PyFloat.fsub y2 y1 in
  PyFloat.fsqrt (PyFloat.fadd (PyFloat.fmul dx dx) (PyFloat.fmul dy dy)).

(** The payload of two points. *)
Definition points (x1 y1 x2 y2 : value) : option (gmap string value) :=
  payload [("x1", x1); ("y1", y1); ("x2", x2); ("y2", y2)].

(** Not negative: NaN, or a number whose sign bit is clear. *)
Definition nonneg (x : spec_float) : bool :=
  negb (PyFloat.sign_bit x).

(** The payload fields the evaluator of a topic reads. *)
Definition fields_of (topic : string) : list string :=
  if decide (topic = "probability") then ["red"; "blue"]
  else if decide (topic = "coordinate-geometry") then ["x1"; "y1"; "x2"; "y2"]
  else if decide (topic = "calculus") then ["a"; "b"]
  else if decide (topic = "matrices") then ["A"; "B"]
  else [].

(** The number of steps a solution of a topic narrates. *)
Definition steps_of (topic : string) : nat :=
  if decide (topic = "matrices") then 5%nat else 4%nat.

(** The call was refused with an HTTP error (a status the handler chose). *)
Definition is_http_error {A} (r : result A) : bool :=
  match r with Raise (HTTPException _ _) => true | _ => false end.

(** A value [len] does not apply to. *)
Definition unsized (v : value) : bool :=
  match v with VNone | VBool _ | VInt _ | VFloat _ => true | _ => false end.

(** The 2x2 identity matrix. *)
Definition identity : value := int_grid 1 0 0 1.

(** The payload of two matrices. *)
Definition matrices (A B : value) : option (gmap string value) :=
  payload [("A", A); ("B", B)].

(** The failures the handlers guard against: a division by zero, an index
    out of range, a root of a negative number. *)
Definition guarded {A} (r : result A) : bool :=
  match r with
  | Raise ZeroDivisionError | Raise IndexError | Raise ComplexPower => false
  | _ => true
  end.

(** The call was refused as a topic the dispatch does not know. *)
Definition is_unsupported {A} (r : result A) : bool :=
  match r with
  | Raise (HTTPException _ detail) => String.eqb detail "Unsupported topic"
  | _ => false
  end.




End Spec.

(** ** Rounding: facts about the IEEE operations *)

Section Rounding.










(** The sign given to [binary_round_aux] is the sign of what it returns. *)
Lemma binary_round_aux_opp (m e : Z) (l : location) :
  binary_round_aux 53 1024 true m e l = SFopp (binary_round_aux 53 1024 false m e l).
Proof.
  unfold binary_round_aux.
  destruct (shr_fexp 53 1024 m e l) as [mrs1 e1].
  destruct (shr_fexp 53 1024 _ e1 loc_Exact) as [mrs2 e2].
  destruct (shr_m mrs2); [reflexivity| |reflexivity].
  destruct (e2 <=? 1024 - 53); reflexivity.
Qed.

Lemma binary_round_aux_nonneg (m e : Z) (l : location) :
  PyFloat.sign_bit (binary_round_aux 53 1024 false m e l) = false.
Proof.
  unfold binary_round_aux.
  destruct (shr_fexp 53 1024 m e l) as [mrs1 e1].
  destruct (shr_fexp 53 1024 _ e1 loc_Exact) as [mrs2 e2].
  destruct (shr_m mrs2); [reflexivity| |reflexivity].
  destruct (e2 <=? 1024 - 53); reflexivity.
Qed.

Lemma binary_round_opp (m : positive) (e : Z) :
  binary_round 53 1024 true m e = SFopp (binary_round 53 1024 false m e).
Proof.
  unfold binary_round. destruct (shl_align _ _ _). apply binary_round_aux_opp.
Qed.

(** Exchanging the operands of a subtraction gives the same double or its
    opposite. *)
Lemma fsub_swap (a b : spec_float) :
  PyFloat.fsub b a = PyFloat.fsub a b \/ PyFloat.fsub b a = SFopp (PyFloat.fsub a b).
Proof.
  unfold PyFloat.fsub.
  destruct a as [sa|sa| |sa ma ea], b as [sb|sb| |sb mb eb];
    try (destruct sa, sb; simpl; auto; fail);
    try (destruct sa; simpl; auto; fail);
    try (destruct sb; simpl; auto; fail); simpl; auto.
  unfold PyFloat.prec, PyFloat.emax. rewrite (Z.min_comm eb ea).
  set (X := cond_Zopp sa (Z.pos (shl_align ma ea (Z.min ea eb)).1)).
  set (Y := cond_Zopp sb (Z.pos (shl_align mb eb (Z.min ea eb)).1)).
  replace (Y - X) with (- (X - Y)) by lia.
  destruct (X - Y) as [|p|p]; simpl; auto.
  - right. apply binary_round_opp.
  - right. rewrite binary_round_opp.
    destruct (binary_round 53 1024 false p _) as [[]|[]| |[] ? ?]; reflexivity.
Qed.

Lemma fmul_self_opp (x : spec_float) :
  PyFloat.fmul (SFopp x) (SFopp x) = PyFloat.fmul x x.
Proof. destruct x as [[]|[]| |[] m e]; reflexivity. Qed.

Lemma fmul_self_nonneg (x : spec_float) :
  PyFloat.sign_bit (PyFloat.fmul x x) = false.
Proof.
  destruct x as [[]|[]| |[] m e]; try reflexivity; apply binary_round_aux_nonneg.
Qed.

Lemma fadd_nonneg (x y : spec_float) :
  PyFloat.sign_bit x = false -> PyFloat.sign_bit y = false ->
  PyFloat.sign_bit (PyFloat.fadd x y) = false.
Proof.
  destruct x as [sx|sx| |sx mx ex], y as [sy|sy| |sy my ey]; simpl;
    intros Hx Hy; subst; try reflexivity.
  unfold binary_normalize.
  destruct (shl_align mx ex (Z.min ex ey)) as [m1 e1],
           (shl_align my ey (Z.min ex ey)) as [m2 e2]. simpl.
  unfold binary_round. destruct (shl_align _ _ _). apply binary_round_aux_nonneg.
Qed.

End Rounding.

(** ** Properties of the content catalog *)

Section Catalog.
Import Py App Spec.

Lemma handle_keeps_catalog (topics : catalog) (r : request) :
  (handle topics r).2 = topics.
Proof. destruct r; reflexivity. Qed.

Lemma serve_keeps_catalog (rs : list request) :
  forall topics : catalog, serve topics rs = topics.
Proof.
  induction rs as [|r rs IH]; intros topics; [reflexivity|].
  unfold serve in *. simpl. rewrite handle_keeps_catalog. apply IH.
Qed.

(** C7: whatever requests were served before, [GET /topics] answers with
    exactly the four identifiers probability, coordinate-geometry, calculus,
    matrices, in that order, and leaves the catalog as it was. *)
Theorem list_topics_fixed (rs : list request) :
  list_topics (serve TOPICS rs) = known_topics /\
  handle (serve TOPICS rs) GetTopics = (Ok (RTopics known_topics), TOPICS).
Proof.
  rewrite serve_keeps_catalog. split; reflexivity.
Qed.

Lemma lookup_topic_known (t : string) :
  t ∈ known_topics ->
  exists b, lookup_topic TOPICS t = Some b /\ (0 < length (samples b))%nat.
Proof.
  unfold known_topics. rewrite !elem_of_cons, elem_of_nil.
  intros [->|[->|[->|[->|[]]]]]; eexists; (split; [reflexivity|simpl; lia]).
Qed.

Lemma lookup_topic_unknown (t : string) :
  t ∉ known_topics -> lookup_topic TOPICS t = None.
Proof.
  unfold known_topics. rewrite !not_elem_of_cons. intros (?&?&?&?&_).
  simpl. repeat (destruct (decide _); [congruence|]). reflexivity.
Qed.

(** C8: after any sequence of requests, [GET /samples/{id}] fails with
    NotFound (status 404) for every id outside the four known identifiers;
    for each known identifier it succeeds and returns the description and the
    samples of that topic, a non-empty list; NotFound is its only failure, and
    the call leaves the catalog unchanged. *)
Theorem get_samples_total (rs : list request) (t : string) :
  (t ∉ known_topics ->
     get_samples (serve TOPICS rs) t = Raise (HTTPException 404 "Unknown topic")) /\
  (t ∈ known_topics ->
     exists b, lookup_topic TOPICS t = Some b /\
       get_samples (serve TOPICS rs) t =
         Ok {| sr_topic := t; sr_description := description b; sr_samples := samples b |} /\
       (0 < length (samples b))%nat) /\
  (forall e, get_samples (serve TOPICS rs) t = Raise e -> NotFound e) /\
  (handle (serve TOPICS rs) (GetSamples t)).2 = serve TOPICS rs.
Proof.
  rewrite serve_keeps_catalog. repeat split.
  - intros H. unfold get_samples. rewrite (lookup_topic_unknown t H). reflexivity.
  - intros H. destruct (lookup_topic_known t H) as (b & Hb & Hn).
    exists b. unfold get_samples. rewrite Hb. auto.
  - intros e. unfold get_samples.
    destruct (lookup_topic TOPICS t); intros [=<-]. eexists; reflexivity.
Qed.

Lemma get_samples_total_witness :
  get_samples (serve TOPICS [GetTopics; GetSamples "calculus"]) "unknown"
    = Raise (HTTPException 404 "Unknown topic") /\
  exists b, lookup_topic TOPICS "matrices" = Some b /\
    get_samples (serve TOPICS [GetTopics; GetSamples "calculus"]) "matrices" =
      Ok {| sr_topic := "matrices"; sr_description := description b;
            sr_samples := samples b |} /\
    (0 < length (samples b))%nat.
Proof.
  split.
  - apply (get_samples_total [GetTopics; GetSamples "calculus"] "unknown").
    unfold known_topics. rewrite !not_elem_of_cons.
    repeat split; [discriminate..|apply not_elem_of_nil].
  - apply (get_samples_total [GetTopics; GetSamples "calculus"] "matrices").
    unfold known_topics. rewrite !elem_of_cons. auto.
Defined.

End Catalog.

(** ** Properties of the solver dispatch *)

Section Dispatch.
Import Py App Spec.

(** C9: the answer of a solve call does not depend on [sample_id]: for every
    topic and payload, two requests that differ only in [sample_id] (absent
    included) return the same result and steps, or raise the same
    exception. *)
Theorem solve_ignores_sample_id (t : string) (d : option (gmap string value))
  (sid1 sid2 : option string) :
  solve (solve_request t sid1 d) = solve (solve_request t sid2 d).
Proof. reflexivity. Qed.

(** C1 (as amended): on the data of sample calc-1, [{a:2, b:3, c:1}], the
    calculus evaluator returns the string [f'(x) = 4.0x + 3.0]: [a] and [b]
    pass through [float] before they are formatted. *)
Theorem solve_calculus_sample (sid : option string) :
  solve (solve_request "calculus" sid (payload (sample_data calc_1))) =
    Ok {| sol_topic := "calculus";
          sol_result := VStr "f'(x) = 4.0x + 3.0";
          sol_steps := [ "Differentiate ax^2 -> 2ax"; "Differentiate bx -> b";
                         "Sum results"; "f'(x) = 4.0x + 3.0" ] |}.
Proof. vm_compute. reflexivity. Qed.

(** C1 (counterexample): the result on the data of calc-1 is not the expected
    answer the catalog records for that sample. *)
Lemma solve_calculus_sample_not_expected :
  (exists b, lookup_topic TOPICS "calculus" = Some b /\ samples b = [calc_1]) /\
  result_of (solve (solve_request "calculus" None (payload (sample_data calc_1))))
    = Ok (VStr "f'(x) = 4.0x + 3.0") /\
  expected calc_1 = "f'(x) = 4x + 3" /\
  "f'(x) = 4.0x + 3.0" <> expected calc_1.
Proof.
  split; [eexists; split; reflexivity|].
  split; [vm_compute; reflexivity|].
  split; [reflexivity|discriminate].
Qed.

End Dispatch.

(** *** The probability evaluator *)

Section Probability.
Import Py App Spec.






Lemma solve_probability_conversions (sid : option string)
  (d : option (gmap string value)) (r b : Z) :
  py_int (get (default ∅ d) "red" (VInt 0)) = Ok r ->
  py_int (get (default ∅ d) "blue" (VInt 0)) = Ok b ->
  solve (solve_request "probability" sid d) =
    if r + b =? 0 then Raise (HTTPException 400 "Total number of balls must be > 0")
    else
      p ← int_truediv r (r + b);
      Ok {| sol_topic := "probability"; sol_result := VFloat p;
            sol_steps := probability_steps r b p |}.
Proof.
  intros Hr Hb. unfold solve, solve_request. cbn [topic data].
  rewrite Hr, Hb.
  destruct (decide ("probability" = "probability")) as [_|]; [|congruence].
  reflexivity.
Qed.

(** C10: the probability evaluator does not check that the counts are
    non-negative and converts them with [int]: on [{red: -1, blue: 3}] it
    succeeds with the result -0.5, below 0; a float count loses its fraction
    ([{red: 2.9, blue: 1.9}] is answered as [{red: 2, blue: 1}]); and of the
    inputs that convert to integers, exactly those of sum zero are rejected
    with an HTTP error. *)
Theorem solve_probability_unvalidated :
  (forall sid,
     solve (solve_request "probability" sid (payload [("red", VInt (-1)); ("blue", VInt 3)])) =
       Ok {| sol_topic := "probability"; sol_result := VFloat minus_half;
             sol_steps := probability_steps (-1) 3 minus_half |}) /\
  (PyFloat.repr minus_half = "-0.5" /\ SFltb minus_half (S754_zero false) = true) /\
  (forall f, PyFloat.is_finite f = true -> py_int (VFloat f) = Ok (PyFloat.trunc f)) /\
  solve (solve_request "probability" None
           (payload [("red", VFloat (PyFloat.div_Z 29 10)); ("blue", VFloat (PyFloat.div_Z 19 10))])) =
    solve (solve_request "probability" None (payload [("red", VInt 2); ("blue", VInt 1)])) /\
  (forall sid d r b,
     py_int (get (default ∅ d) "red" (VInt 0)) = Ok r ->
     py_int (get (default ∅ d) "blue" (VInt 0)) = Ok b ->
     (r + b = 0 ->
        solve (solve_request "probability" sid d) =
          Raise (HTTPException 400 "Total number of balls must be > 0")) /\
     (r + b <> 0 ->
        forall status detail,
          solve (solve_request "probability" sid d) <> Raise (HTTPException status detail))).
Proof.
  split; [intros sid; vm_compute; reflexivity|].
  split; [split; vm_compute; reflexivity|].
  split; [intros [] Hf; try discriminate; reflexivity|].
  split; [vm_compute; reflexivity|].
  intros sid d r b Hr Hb.
  rewrite (solve_probability_conversions sid d r b Hr Hb).
  split.
  - intros ->. reflexivity.
  - intros Hne status detail. destruct (Z.eqb_spec (r + b) 0); [lia|].
    unfold int_truediv. destruct (Z.eqb_spec (r + b) 0); [lia|].
    destruct (PyFloat.is_inf _); discriminate.
Qed.

Lemma solve_probability_unvalidated_witness :
  solve (solve_request "probability" None
           (payload [("red", VInt (-3)); ("blue", VFloat (PyFloat.div_Z 7 2))])) =
    Raise (HTTPException 400 "Total number of balls must be > 0").
Proof.
  apply (proj2 (proj2 (proj2 (proj2 solve_probability_unvalidated)))
           None (payload [("red", VInt (-3)); ("blue", VFloat (PyFloat.div_Z 7 2))]) (-3) 3);
    [reflexivity|vm_compute; reflexivity|lia].
Defined.

End Probability.

(** *** The matrix evaluator *)

Section Matrices.
Import Py App Spec.

Lemma all_len2_lists (rows : list value) :
  forallb is_list rows = true -> all_len2 rows = Ok (forallb has_len2 rows).
Proof.
  induction rows as [|row rows IH]; [reflexivity|].
  simpl. intros [Hrow Hrows]%andb_prop.
  destruct row; try discriminate. cbn.
  destruct (Nat.eqb_spec (length l) 2) as [E|E].
  - replace (Z.of_nat (length l) =? 2) with true by (symmetry; apply Z.eqb_eq; lia).
    apply IH, Hrows.
  - replace (Z.of_nat (length l) =? 2) with false by (symmetry; apply Z.eqb_neq; lia).
    reflexivity.
Qed.

Lemma is_2x2_lists (rowsA rowsB : list value) :
  forallb is_list rowsA = true -> forallb is_list rowsB = true ->
  is_2x2 rowsA rowsB = Ok (dims_2x2 (VList rowsA) && dims_2x2 (VList rowsB)).
Proof.
  intros HA HB. unfold is_2x2, dims_2x2.
  destruct (Nat.eqb_spec (length rowsB) 2) as [EB|EB]; cycle 1.
  { rewrite andb_false_r. f_equal.
    destruct ((length rowsA =? 2)%nat && forallb has_len2 rowsA); reflexivity. }
  rewrite EB. destruct (Nat.eqb_spec (length rowsA) 2) as [EA|EA]; [|reflexivity].
  cbn [andb]. rewrite (all_len2_lists _ HA). cbn.
  destruct (forallb has_len2 rowsA); [|reflexivity].
  apply all_len2_lists, HB.
Qed.

(** C3 (as amended): the matrix evaluator fails with status 400 and the
    reason [A and B must be 2x2 lists] whenever A or B is missing or is not a
    list, and with status 400 and the reason [Only 2x2 matrices are supported
    in this demo] whenever A and B are lists of lists and one of them has a
    dimension different from 2. *)
Theorem solve_matrices_invalid (sid : option string) (d : option (gmap string value)) :
  (is_list (arg d "A") && is_list (arg d "B") = false ->
     solve (solve_request "matrices" sid d) =
       Raise (HTTPException 400 "A and B must be 2x2 lists")) /\
  (is_grid (arg d "A") = true -> is_grid (arg d "B") = true ->
   dims_2x2 (arg d "A") && dims_2x2 (arg d "B") = false ->
     solve (solve_request "matrices" sid d) =
       Raise (HTTPException 400 "Only 2x2 matrices are supported in this demo")).
Proof.
  unfold arg, solve, solve_request. cbn [topic data].
  repeat (destruct (decide (_ = _)) as [?|_]; [discriminate|]).
  destruct (decide ("matrices" = "matrices")) as [_|]; [|congruence].
  destruct (get (default ∅ d) "A" VNone) as [| | | | |rowsA|],
           (get (default ∅ d) "B" VNone) as [| | | | |rowsB|];
    (split; [intros H; try discriminate H; reflexivity|intros HA HB H; try discriminate]).
  simpl in HA, HB. rewrite (is_2x2_lists _ _ HA HB), H. reflexivity.
Qed.

Lemma solve_matrices_invalid_witness :
  solve (solve_request "matrices" None
           (payload [("B", int_grid 1 0 0 1)])) =
    Raise (HTTPException 400 "A and B must be 2x2 lists") /\
  solve (solve_request "matrices" None
           (payload [("A", VList [VList [VInt 1; VInt 2; VInt 3]; VList [VInt 4; VInt 5; VInt 6]]);
                     ("B", int_grid 1 0 0 1)])) =
    Raise (HTTPException 400 "Only 2x2 matrices are supported in this demo").
Proof.
  split.
  - apply (solve_matrices_invalid None (payload [("B", int_grid 1 0 0 1)])). reflexivity.
  - apply (solve_matrices_invalid None
             (payload [("A", VList [VList [VInt 1; VInt 2; VInt 3]; VList [VInt 4; VInt 5; VInt 6]]);
                       ("B", int_grid 1 0 0 1)])); reflexivity.
Defined.

(** C3 (counterexample): on the 2x3 matrix of the specification the failure
    does not carry the reason [A and B must be 2x2]. *)
Lemma solve_matrices_2x3_reason :
  solve (solve_request "matrices" None
           (payload [("A", VList [VList [VInt 1; VInt 2; VInt 3]; VList [VInt 4; VInt 5; VInt 6]]);
                     ("B", int_grid 1 0 0 1)])) =
    Raise (HTTPException 400 "Only 2x2 matrices are supported in this demo") /\
  ~ InvalidInput "A and B must be 2x2"
      (HTTPException 400 "Only 2x2 matrices are supported in this demo").
Proof.
  split; [vm_compute; reflexivity|]. unfold InvalidInput. discriminate.
Qed.

(** A row that has no length (here the integers 1 and 2 in place of rows)
    escapes the shape check: [len(row)] raises TypeError. *)
Lemma solve_matrices_unsized_row :
  solve (solve_request "matrices" None
           (payload [("A", VList [VInt 1; VInt 2]); ("B", int_grid 1 0 0 1)])) =
    Raise TypeError.
Proof. vm_compute. reflexivity. Qed.

Lemma solve_matrices_grid (sid : option string) (d : option (gmap string value))
  (a11 a12 a21 a22 b11 b12 b21 b22 : value) :
  arg d "A" = grid a11 a12 a21 a22 -> arg d "B" = grid b11 b12 b21 b22 ->
  result_of (solve (solve_request "matrices" sid d)) =
    c11 ← (p ← py_mul a11 b11; q ← py_mul a12 b21; py_add p q);
    c12 ← (p ← py_mul a11 b12; q ← py_mul a12 b22; py_add p q);
    c21 ← (p ← py_mul a21 b11; q ← py_mul a22 b21; py_add p q);
    c22 ← (p ← py_mul a21 b12; q ← py_mul a22 b22; py_add p q);
    Ok (grid c11 c12 c21 c22).
Proof.
  unfold arg, solve, solve_request. cbn [topic data]. intros -> ->.
  repeat (destruct (decide (_ = _)) as [?|_]; [discriminate|]).
  destruct (decide ("matrices" = "matrices")) as [_|]; [|congruence].
  unfold grid, result_of, cell, cell_step, item.
  cbn [is_2x2 all_len2 py_len length Nat.eqb andb Z.of_nat Pos.of_succ_nat
       Pos.succ Z.eqb Pos.eqb mbind result_bind negb py_getitem lookup list_lookup].
  destruct (py_mul a11 b11) as [p1|]; [|reflexivity].
  destruct (py_mul a12 b21) as [q1|]; [|reflexivity]. cbn [mbind result_bind].
  destruct (py_add p1 q1) as [c11|]; [|reflexivity]. cbn [mbind result_bind].
  destruct (py_mul a11 b12) as [p2|]; [|reflexivity].
  destruct (py_mul a12 b22) as [q2|]; [|reflexivity]. cbn [mbind result_bind].
  destruct (py_add p2 q2) as [c12|]; [|reflexivity]. cbn [mbind result_bind].
  destruct (py_mul a21 b11) as [p3|]; [|reflexivity].
  destruct (py_mul a22 b21) as [q3|]; [|reflexivity]. cbn [mbind result_bind].
  destruct (py_add p3 q3) as [c21|]; [|reflexivity]. cbn [mbind result_bind].
  destruct (py_mul a21 b12) as [p4|]; [|reflexivity].
  destruct (py_mul a22 b22) as [q4|]; [|reflexivity]. cbn [mbind result_bind].
  destruct (py_add p4 q4) as [c22|]; reflexivity.
Qed.




End Matrices.

(** *** The coordinate-geometry evaluator *)

Section Geometry.
Import Py App Spec.

(** The result of the evaluator from the four conversions of its inputs. *)
Lemma solve_geometry_result (sid : option string) (d : option (gmap string value))
  (r1 r2 r3 r4 : result spec_float) :
  py_float (get (default ∅ d) "x1" (VInt 0)) = r1 ->
  py_float (get (default ∅ d) "y1" (VInt 0)) = r2 ->
  py_float (get (default ∅ d) "x2" (VInt 0)) = r3 ->
  py_float (get (default ∅ d) "y2" (VInt 0)) = r4 ->
  result_of (solve (solve_request "coordinate-geometry" sid d)) =
    x1 ← r1; y1 ← r2; x2 ← r3; y2 ← r4;
    dx2 ← float_pow2 (PyFloat.fsub x2 x1);
    dy2 ← float_pow2 (PyFloat.fsub y2 y1);
    dist ← float_pow_half (PyFloat.fadd dx2 dy2);
    Ok (VFloat dist).
Proof.
  intros <- <- <- <-. unfold solve, solve_request, result_of. cbn [topic data].
  destruct (decide (_ = "probability")) as [?|_]; [discriminate|].
  destruct (decide ("coordinate-geometry" = "coordinate-geometry")) as [_|]; [|congruence].
  destruct (py_float (get (default ∅ d) "x1" (VInt 0))) as [x1|]; [|reflexivity].
  destruct (py_float (get (default ∅ d) "y1" (VInt 0))) as [y1|]; [|reflexivity].
  destruct (py_float (get (default ∅ d) "x2" (VInt 0))) as [x2|]; [|reflexivity].
  destruct (py_float (get (default ∅ d) "y2" (VInt 0))) as [y2|]; [|reflexivity].
  cbn [mbind result_bind].
  destruct (float_pow2 (PyFloat.fsub x2 x1)) as [dx2|]; [|reflexivity].
  destruct (float_pow2 (PyFloat.fsub y2 y1)) as [dy2|]; [|reflexivity].
  cbn [mbind result_bind].
  destruct (float_pow_half (PyFloat.fadd dx2 dy2)); reflexivity.
Qed.

Lemma float_pow2_spec (x : spec_float) :
  float_pow2 x = if sq_overflows x then Raise OverflowError else Ok (PyFloat.fmul x x).
Proof. destruct x as [[]|[]| |s m e]; reflexivity. Qed.

Lemma float_pow_half_nonneg (x : spec_float) :
  PyFloat.sign_bit x = false -> float_pow_half x = Ok (PyFloat.fsqrt x).
Proof. destruct x as [[]|[]| |[] m e]; try discriminate; reflexivity. Qed.

Lemma float_pow2_swap (a b : spec_float) :
  float_pow2 (PyFloat.fsub b a) = float_pow2 (PyFloat.fsub a b).
Proof.
  destruct (fsub_swap a b) as [->| ->]; [reflexivity|].
  rewrite !float_pow2_spec. unfold sq_overflows. rewrite fmul_self_opp.
  destruct (PyFloat.fsub a b) as [[]|[]| |[] m e]; reflexivity.
Qed.




Lemma py_float_number (v : value) :
  is_number v = true ->
  (exists x, py_float v = Ok x) \/ py_float v = Raise OverflowError.
Proof.
  destruct v; try discriminate; intros _; simpl.
  - unfold float_of_int. destruct (PyFloat.is_inf _); eauto.
  - eauto.
Qed.

(** C6: for all numbers [x1], [y1], [x2], [y2], the coordinate-geometry
    evaluator gives the same result on the two points as on the two points
    exchanged; if it fails on one order it fails with the same exception on
    the other. *)
Theorem solve_geometry_symmetric (sid : option string) (x1 y1 x2 y2 : value) :
  is_number x1 = true -> is_number y1 = true ->
  is_number x2 = true -> is_number y2 = true ->
  result_of (solve (solve_request "coordinate-geometry" sid (points x1 y1 x2 y2))) =
  result_of (solve (solve_request "coordinate-geometry" sid (points x2 y2 x1 y1))).
Proof.
  intros N1 N2 N3 N4.
  rewrite (solve_geometry_result sid (points x1 y1 x2 y2)
             (py_float x1) (py_float y1) (py_float x2) (py_float y2)) by reflexivity.
  rewrite (solve_geometry_result sid (points x2 y2 x1 y1)
             (py_float x2) (py_float y2) (py_float x1) (py_float y1)) by reflexivity.
  destruct (py_float_number x1 N1) as [[a1 ->]| ->],
           (py_float_number y1 N2) as [[b1 ->]| ->],
           (py_float_number x2 N3) as [[a2 ->]| ->],
           (py_float_number y2 N4) as [[b2 ->]| ->]; try reflexivity.
  cbn [mbind result_bind].
  rewrite (float_pow2_swap a1 a2), (float_pow2_swap b1 b2). reflexivity.
Qed.

Lemma solve_geometry_symmetric_witness :
  result_of (solve (solve_request "coordinate-geometry" None
                      (points (VInt 1) (VFloat (PyFloat.div_Z 5 2)) (VInt 4) (VInt 6)))) =
  result_of (solve (solve_request "coordinate-geometry" None
                      (points (VInt 4) (VInt 6) (VInt 1) (VFloat (PyFloat.div_Z 5 2))))).
Proof.
  apply (solve_geometry_symmetric None (VInt 1) (VFloat (PyFloat.div_Z 5 2)) (VInt 4) (VInt 6));
    reflexivity.
Defined.

End Geometry.

(** ** Further properties of the handlers *)

(** Follow a call that returned: the raising case closes a goal whose
    hypothesis is that the whole computation returned. *)
Ltac run_ok :=
  lazymatch goal with
  | |- mbind _ ?m = _ -> _ => destruct m; cbn [mbind Py.result_bind]; [|discriminate]
  end.

Section DispatchShape.
Import Py App Spec.

(** X1: a topic outside the four known ones is refused with status 400 and
    the reason [Unsupported topic], whatever the payload. *)
Theorem solve_unsupported_topic (t : string) (sid : option string)
  (d : option (gmap string value)) :
  t ∉ known_topics ->
  solve (solve_request t sid d) = Raise (HTTPException 400 "Unsupported topic").
Proof.
  unfold known_topics. rewrite !not_elem_of_cons. intros (?&?&?&?&_).
  unfold solve, solve_request. cbn [topic data].
  repeat (destruct (decide (t = _)) as [?|_]; [congruence|]). reflexivity.
Qed.

Lemma solve_unsupported_topic_witness :
  solve (solve_request "algebra" None (payload [("a", VInt 1)])) =
    Raise (HTTPException 400 "Unsupported topic").
Proof.
  apply (solve_unsupported_topic "algebra" None (payload [("a", VInt 1)])).
  unfold known_topics. rewrite !not_elem_of_cons.
  repeat split; [discriminate..|apply not_elem_of_nil].
Defined.

(** X2: a solve call that succeeds echoes the topic of the request, which is
    one of the four known topics, and narrates five steps for matrices and
    four steps for every other topic. *)
Theorem solve_success_shape (req : SolveRequest) (s : solution) :
  solve req = Ok s ->
  sol_topic s = topic req /\ topic req ∈ known_topics /\
  length (sol_steps s) = steps_of (topic req).
Proof.
  unfold solve, steps_of, known_topics. destruct req as [t sid d]. cbn [topic data].
  destruct (decide (t = "probability")) as [->|?].
  { do 2 run_ok. destruct (_ =? 0); [discriminate|].
    run_ok. intros [=<-]. repeat split. set_solver. }
  destruct (decide (t = "coordinate-geometry")) as [->|?].
  { do 4 run_ok. do 2 run_ok. run_ok.
    intros [=<-]. repeat split. set_solver. }
  destruct (decide (t = "calculus")) as [->|?].
  { do 2 run_ok. intros [=<-]. repeat split. set_solver. }
  destruct (decide (t = "matrices")) as [->|?]; [|discriminate].
  destruct (get _ "A" VNone) as [| | | | |rowsA|]; try discriminate.
  destruct (get _ "B" VNone) as [| | | | |rowsB|]; try discriminate.
  run_ok. destruct a; [|discriminate]. cbn [negb].
  do 4 run_ok. do 4 run_ok.
  intros [=<-]. repeat split. set_solver.
Qed.

Lemma solve_success_shape_witness :
  sol_topic {| sol_topic := "calculus"; sol_result := VStr "f'(x) = 0.0x + 0.0";
               sol_steps := [ "Differentiate ax^2 -> 2ax"; "Differentiate bx -> b";
                              "Sum results"; "f'(x) = 0.0x + 0.0" ] |} = "calculus" /\
  "calculus" ∈ known_topics /\
  length [ "Differentiate ax^2 -> 2ax"; "Differentiate bx -> b";
           "Sum results"; "f'(x) = 0.0x + 0.0" ] = steps_of "calculus".
Proof.
  apply (solve_success_shape (solve_request "calculus" None None)).
  vm_compute. reflexivity.
Defined.

(** X3: an evaluator reads only the fields of its topic: two payloads that
    agree on them (an absent payload counting as empty) get the same answer;
    in particular the field [c] of the calculus topic is never read. *)
Theorem solve_reads_only_its_fields (t : string) (sid : option string)
  (d d' : option (gmap string value)) :
  (forall k, k ∈ fields_of t -> default ∅ d !! k = default ∅ d' !! k) ->
  solve (solve_request t sid d) = solve (solve_request t sid d').
Proof.
  intros H. unfold solve, solve_request, fields_of, get in *. cbn [topic data].
  repeat (destruct (decide (t = _)) as [->|?]);
    repeat (rewrite H by set_solver); reflexivity.
Qed.

Lemma solve_reads_only_its_fields_witness :
  solve (solve_request "calculus" None (payload [("a", VInt 2); ("b", VInt 3); ("c", VInt 1)])) =
  solve (solve_request "calculus" None (payload [("b", VInt 3); ("a", VInt 2); ("c", VStr "x")])).
Proof.
  apply (solve_reads_only_its_fields "calculus" None
           (payload [("a", VInt 2); ("b", VInt 3); ("c", VInt 1)])
           (payload [("b", VInt 3); ("a", VInt 2); ("c", VStr "x")])).
  intros k Hk. unfold fields_of in Hk. simpl in Hk.
  apply elem_of_cons in Hk as [->|Hk]; [reflexivity|].
  apply elem_of_cons in Hk as [->|Hk]; [reflexivity|].
  apply elem_of_nil in Hk as [].
Defined.


(** X5: for any catalog, the topics [GET /topics] lists are exactly the
    topics [GET /samples/{topic}] answers; every other topic gets status 404
    with the reason [Unknown topic]. *)
Theorem listed_iff_served (topics : catalog) (t : string) :
  (t ∈ list_topics topics <-> succeeds (get_samples topics t) = true) /\
  (succeeds (get_samples topics t) = false <->
     get_samples topics t = Raise (HTTPException 404 "Unknown topic")).
Proof.
  unfold get_samples, list_topics. split.
  - induction topics as [|[k b] rest IH]; simpl.
    + split; [intros []%elem_of_nil|discriminate].
    + rewrite elem_of_cons. destruct (decide (k = t)) as [->|Hne]; simpl.
      * split; auto.
      * rewrite IH. split; [intros [?|?]; [congruence|assumption]|auto].
  - destruct (lookup_topic topics t); simpl; split; (discriminate || reflexivity).
Qed.

End DispatchShape.

(** *** Further properties of the coordinate-geometry and calculus evaluators *)

Section GeometryMore.
Import Py App Spec.




Lemma fsub_self (x : spec_float) :
  PyFloat.is_finite x = true -> PyFloat.fsub x x = S754_zero false.
Proof.
  destruct x as [[]|[]| |s m e]; try discriminate; try reflexivity.
  intros _. unfold PyFloat.fsub, SFsub. rewrite Z.sub_diag. reflexivity.
Qed.

(** X7: the distance from a point to itself is 0.0: when the two points
    convert to the same finite coordinates the evaluator succeeds with the
    result 0.0. *)
Theorem solve_geometry_same_point (sid : option string) (d : option (gmap string value))
  (x y : spec_float) :
  PyFloat.is_finite x = true -> PyFloat.is_finite y = true ->
  reads_float d "x1" x -> reads_float d "y1" y ->
  reads_float d "x2" x -> reads_float d "y2" y ->
  result_of (solve (solve_request "coordinate-geometry" sid d)) =
    Ok (VFloat (S754_zero false)).
Proof.
  intros Fx Fy H1 H2 H3 H4.
  rewrite (solve_geometry_result sid d _ _ _ _ H1 H2 H3 H4).
  cbn [mbind result_bind]. rewrite !fsub_self by assumption. reflexivity.
Qed.

Lemma solve_geometry_same_point_witness :
  result_of (solve (solve_request "coordinate-geometry" None
                      (points (VFloat (PyFloat.div_Z 7 2)) (VInt (-3))
                              (VFloat (PyFloat.div_Z 7 2)) (VInt (-3))))) =
    Ok (VFloat (S754_zero false)).
Proof.
  apply (solve_geometry_same_point None
           (points (VFloat (PyFloat.div_Z 7 2)) (VInt (-3))
                   (VFloat (PyFloat.div_Z 7 2)) (VInt (-3)))
           (PyFloat.div_Z 7 2) (PyFloat.of_Z (-3))); reflexivity.
Defined.

Lemma py_float_no_http (v : value) : is_http_error (py_float v) = false.
Proof.
  destruct v; try reflexivity; simpl.
  - unfold float_of_int. destruct (PyFloat.is_inf _); reflexivity.
  - unfold float_of_string. destruct (take_sign _) as [neg body].
    destruct (_ || _); [reflexivity|]. destruct (String.eqb _ _); [reflexivity|].
    destruct (decimal_of body) as [[m e]|]; reflexivity.
Qed.

Lemma float_pow2_no_http (x : spec_float) : is_http_error (float_pow2 x) = false.
Proof.
  destruct x; try reflexivity. simpl. destruct (PyFloat.is_inf _); reflexivity.
Qed.

Lemma float_pow_half_no_http (x : spec_float) : is_http_error (float_pow_half x) = false.
Proof. destruct x as [s|s| |[] m e]; reflexivity. Qed.

Lemma bind_no_http {A B} (m : result A) (k : A -> result B) :
  is_http_error m = false -> (forall a, is_http_error (k a) = false) ->
  is_http_error (m ≫= k) = false.
Proof. destruct m; simpl; auto. Qed.

(** X8: the coordinate-geometry and calculus evaluators validate nothing:
    they never refuse a payload with an HTTP error.  Whatever goes wrong in
    them (a field that is no number, a number beyond the doubles) leaves the
    handler as an unhandled exception. *)
Theorem solve_unvalidated_topics (t : string) (sid : option string)
  (d : option (gmap string value)) :
  t = "coordinate-geometry" \/ t = "calculus" ->
  is_http_error (solve (solve_request t sid d)) = false.
Proof.
  unfold solve, solve_request. cbn [topic data]. intros [->| ->].
  - destruct (decide (_ = "probability")) as [?|_]; [discriminate|].
    destruct (decide ("coordinate-geometry" = "coordinate-geometry")) as [_|]; [|congruence].
    repeat (apply bind_no_http;
            [first [apply py_float_no_http|apply float_pow2_no_http
                   |apply float_pow_half_no_http]|intros ?]).
    reflexivity.
  - repeat (destruct (decide ("calculus" = _)) as [?|_]; [discriminate|]).
    destruct (decide ("calculus" = "calculus")) as [_|]; [|congruence].
    repeat (apply bind_no_http; [apply py_float_no_http|intros ?]).
    reflexivity.
Qed.

Lemma solve_unvalidated_topics_witness :
  is_http_error (solve (solve_request "coordinate-geometry" None
                          (payload [("x1", VNone)]))) = false /\
  is_http_error (solve (solve_request "calculus" None
                          (payload [("a", VStr "two")]))) = false.
Proof.
  split.
  - apply (solve_unvalidated_topics "coordinate-geometry" None (payload [("x1", VNone)])).
    left; reflexivity.
  - apply (solve_unvalidated_topics "calculus" None (payload [("a", VStr "two")])).
    right; reflexivity.
Defined.

End GeometryMore.

(** *** Further properties of the matrix evaluator *)

Section MatricesMore.
Import Py App Spec.

(** X9: the lengths of A and B are checked before any row is looked at: when
    A and B are lists and one of them does not have exactly two rows, the
    evaluator fails with status 400 and the reason [Only 2x2 matrices are
    supported in this demo], whatever the rows are. *)
Theorem solve_matrices_outer_length (sid : option string)
  (d : option (gmap string value)) (rowsA rowsB : list value) :
  arg d "A" = VList rowsA -> arg d "B" = VList rowsB ->
  length rowsA <> 2%nat \/ length rowsB <> 2%nat ->
  solve (solve_request "matrices" sid d) =
    Raise (HTTPException 400 "Only 2x2 matrices are supported in this demo").
Proof.
  unfold arg, solve, solve_request. cbn [topic data]. intros -> -> H.
  repeat (destruct (decide (_ = _)) as [?|_]; [discriminate|]).
  destruct (decide ("matrices" = "matrices")) as [_|]; [|congruence].
  unfold is_2x2.
  destruct (Nat.eqb_spec (length rowsA) (length rowsB)) as [E|E];
    destruct (Nat.eqb_spec (length rowsB) 2) as [E'|E']; try reflexivity.
  lia.
Qed.

Lemma solve_matrices_outer_length_witness :
  solve (solve_request "matrices" None
           (matrices (VList [VInt 1; VNone; VStr "row"]) identity)) =
    Raise (HTTPException 400 "Only 2x2 matrices are supported in this demo").
Proof.
  apply (solve_matrices_outer_length None
           (matrices (VList [VInt 1; VNone; VStr "row"]) identity)
           [VInt 1; VNone; VStr "row"] [VList [VInt 1; VInt 0]; VList [VInt 0; VInt 1]]);
    [reflexivity|reflexivity|left; simpl; lia].
Defined.

Lemma py_len_unsized (v : value) : unsized v = true -> py_len v = Raise TypeError.
Proof. destruct v; try discriminate; reflexivity. Qed.

(** X10: a row without a length escapes the shape check as a TypeError, not
    as status 400: when A and B both have two rows and the first row of A
    that is not of length 2 is [None], a boolean or a number, the evaluator
    raises TypeError. *)
Theorem solve_matrices_unsized_rows (sid : option string)
  (d : option (gmap string value)) (r1 r2 : value) (rowsB : list value) :
  arg d "A" = VList [r1; r2] -> arg d "B" = VList rowsB -> length rowsB = 2%nat ->
  unsized r1 = true \/ (py_len r1 = Ok 2 /\ unsized r2 = true) ->
  solve (solve_request "matrices" sid d) = Raise TypeError.
Proof.
  unfold arg, solve, solve_request. cbn [topic data]. intros -> -> HB H.
  repeat (destruct (decide (_ = _)) as [?|_]; [discriminate|]).
  destruct (decide ("matrices" = "matrices")) as [_|]; [|congruence].
  unfold is_2x2. rewrite HB. cbn [length Nat.eqb andb all_len2].
  destruct H as [H|[H1 H2]].
  - rewrite (py_len_unsized _ H). reflexivity.
  - rewrite H1. cbn [mbind result_bind Z.eqb Pos.eqb].
    rewrite (py_len_unsized _ H2). reflexivity.
Qed.

Lemma solve_matrices_unsized_rows_witness :
  solve (solve_request "matrices" None (matrices (VList [VStr "ab"; VInt 7]) identity)) =
    Raise TypeError.
Proof.
  apply (solve_matrices_unsized_rows None (matrices (VList [VStr "ab"; VInt 7]) identity)
           (VStr "ab") (VInt 7) [VList [VInt 1; VInt 0]; VList [VInt 0; VInt 1]]);
    [reflexivity|reflexivity|reflexivity|right; split; reflexivity].
Defined.


Lemma solve_matrices_int_grids (sid : option string)
  (a11 a12 a21 a22 b11 b12 b21 b22 : Z) :
  result_of (solve (solve_request "matrices" sid
                      (matrices (int_grid a11 a12 a21 a22) (int_grid b11 b12 b21 b22)))) =
    Ok (int_grid (a11 * b11 + a12 * b21) (a11 * b12 + a12 * b22)
                 (a21 * b11 + a22 * b21) (a21 * b12 + a22 * b22)).
Proof.
  rewrite (solve_matrices_grid sid _ (VInt a11) (VInt a12) (VInt a21) (VInt a22)
             (VInt b11) (VInt b12) (VInt b21) (VInt b22)) by reflexivity.
  reflexivity.
Qed.

(** X12: results of the matrix evaluator feed back into it, and on integer
    matrices the product is associative: multiplying the result of [A, B] by
    [C] gives the same result as multiplying [A] by the result of [B, C]. *)
Theorem solve_matrices_associative (sid : option string)
  (a11 a12 a21 a22 b11 b12 b21 b22 c11 c12 c21 c22 : Z) (AB BC : value) :
  result_of (solve (solve_request "matrices" sid
                      (matrices (int_grid a11 a12 a21 a22) (int_grid b11 b12 b21 b22)))) = Ok AB ->
  result_of (solve (solve_request "matrices" sid
                      (matrices (int_grid b11 b12 b21 b22) (int_grid c11 c12 c21 c22)))) = Ok BC ->
  result_of (solve (solve_request "matrices" sid (matrices AB (int_grid c11 c12 c21 c22)))) =
  result_of (solve (solve_request "matrices" sid (matrices (int_grid a11 a12 a21 a22) BC))).
Proof.
  rewrite !solve_matrices_int_grids. intros [=<-] [=<-].
  rewrite !solve_matrices_int_grids. do 2 f_equal; lia.
Qed.

Lemma solve_matrices_associative_witness :
  result_of (solve (solve_request "matrices" None
                      (matrices (int_grid 4 4 10 8) (int_grid 0 1 (-1) 5)))) =
  result_of (solve (solve_request "matrices" None
                      (matrices (int_grid 1 2 3 4) (int_grid 0 2 (-2) 11)))).
Proof.
  apply (solve_matrices_associative None 1 2 3 4 2 0 1 2 0 1 (-1) 5
           (int_grid 4 4 10 8) (int_grid 0 2 (-2) 11)); vm_compute; reflexivity.
Defined.

End MatricesMore.

(** *** What the guards of the evaluators rule out *)

Section Guards.
Import Py App Spec.

Lemma bind_guarded {A B} (m : result A) (k : A -> result B) :
  guarded m = true -> (forall a, m = Ok a -> guarded (k a) = true) ->
  guarded (m ≫= k) = true.
Proof. destruct m as [a|e]; simpl; [auto|]. destruct e; auto. Qed.

Lemma float_of_int_guarded (n : Z) : guarded (float_of_int n) = true.
Proof. unfold float_of_int. destruct (PyFloat.is_inf _); reflexivity. Qed.

Lemma py_int_guarded (v : value) : guarded (py_int v) = true.
Proof.
  destruct v; try reflexivity; simpl.
  - destruct (PyFloat.is_nan f); [reflexivity|]. destruct (PyFloat.is_inf f); reflexivity.
  - unfold int_of_string. destruct (take_sign _) as [neg body].
    destruct (digitpart body) as [[[n k] [|c rest]]|]; reflexivity.
Qed.

Lemma py_float_guarded (v : value) : guarded (py_float v) = true.
Proof.
  destruct v; try reflexivity; simpl.
  - apply float_of_int_guarded.
  - unfold float_of_string. destruct (take_sign _) as [neg body].
    destruct (_ || _); [reflexivity|]. destruct (String.eqb _ _); [reflexivity|].
    destruct (decimal_of body) as [[m e]|]; reflexivity.
Qed.

Lemma py_mul_guarded (a b : value) : guarded (py_mul a b) = true.
Proof.
  destruct a as [| [] | | | | |], b as [| [] | | | | |]; try reflexivity; simpl;
    try (apply bind_guarded; [apply float_of_int_guarded|reflexivity]).
Qed.

Lemma py_add_guarded (a b : value) : guarded (py_add a b) = true.
Proof.
  destruct a as [| [] | | | | |], b as [| [] | | | | |]; try reflexivity; simpl;
    try (apply bind_guarded; [apply float_of_int_guarded|reflexivity]).
Qed.

Lemma int_truediv_guarded (a b : Z) : b <> 0 -> guarded (int_truediv a b) = true.
Proof.
  intros Hb. unfold int_truediv. destruct (Z.eqb_spec b 0); [lia|].
  destruct (PyFloat.is_inf _); reflexivity.
Qed.

Lemma float_pow2_guarded (x : spec_float) : guarded (float_pow2 x) = true.
Proof. destruct x; try reflexivity. simpl. destruct (PyFloat.is_inf _); reflexivity. Qed.

Lemma float_pow2_sign (x y : spec_float) :
  float_pow2 x = Ok y -> PyFloat.sign_bit y = false.
Proof.
  rewrite float_pow2_spec. destruct (sq_overflows x); intros [=<-].
  apply fmul_self_nonneg.
Qed.

(** The sum of two squares has a root. *)
Lemma float_pow_half_guarded (x y : spec_float) :
  PyFloat.sign_bit x = false -> PyFloat.sign_bit y = false ->
  guarded (float_pow_half (PyFloat.fadd x y)) = true.
Proof.
  intros Hx Hy. rewrite float_pow_half_nonneg by (apply fadd_nonneg; assumption).
  reflexivity.
Qed.

Lemma all_len2_true (rows : list value) :
  all_len2 rows = Ok true -> Forall (fun row => py_len row = Ok 2) rows.
Proof.
  induction rows as [|row rows IH]; [constructor|].
  simpl. destruct (py_len row) as [n|] eqn:E; [|discriminate]. cbn [mbind result_bind].
  destruct (Z.eqb_spec n 2) as [->|]; [|discriminate].
  intros H. constructor; auto.
Qed.

Lemma is_2x2_true (rowsA rowsB : list value) :
  is_2x2 rowsA rowsB = Ok true ->
  exists r1 r2 r3 r4, rowsA = [r1; r2] /\ rowsB = [r3; r4] /\
    py_len r1 = Ok 2 /\ py_len r2 = Ok 2 /\ py_len r3 = Ok 2 /\ py_len r4 = Ok 2.
Proof.
  unfold is_2x2.
  destruct (Nat.eqb_spec (length rowsA) (length rowsB)) as [EA|]; [|discriminate].
  destruct (Nat.eqb_spec (length rowsB) 2) as [EB|]; [|discriminate].
  cbn [andb]. rewrite EB in EA.
  destruct (all_len2 rowsA) as [[]|] eqn:HA; try discriminate.
  cbn [mbind result_bind]. intros HB.
  apply all_len2_true in HA, HB.
  destruct rowsA as [|r1 [|r2 [|]]]; try discriminate.
  destruct rowsB as [|r3 [|r4 [|]]]; try discriminate.
  inversion HA as [|? ? H1 HA']; inversion HA' as [|? ? H2 _]; subst.
  inversion HB as [|? ? H3 HB']; inversion HB' as [|? ? H4 _]; subst.
  eauto 10.
Qed.

(** A row of length 2 has an entry at index 0 and at index 1 (a dict of two
    items has no integer key: KeyError). *)
Lemma py_getitem_len2 (row : value) (j : nat) :
  py_len row = Ok 2 -> (j < 2)%nat -> guarded (py_getitem row j) = true.
Proof.
  intros H Hj. destruct row as [| | | |s|l|items]; try discriminate; simpl in *.
  - injection H as H.
    destruct s as [|c1 [|c2 [|]]]; simpl in H; try lia.
    destruct j as [|[|]]; [reflexivity|reflexivity|lia].
  - injection H as H.
    destruct l as [|v1 [|v2 [|]]]; simpl in H; try lia.
    destruct j as [|[|]]; [reflexivity|reflexivity|lia].
  - reflexivity.
Qed.

Lemma item_guarded (r1 r2 : value) (i j : nat) :
  py_len r1 = Ok 2 -> py_len r2 = Ok 2 -> (i < 2)%nat -> (j < 2)%nat ->
  guarded (item (VList [r1; r2]) i j) = true.
Proof.
  intros H1 H2 Hi Hj. unfold item.
  destruct i as [|[|]]; [| |lia]; cbn; now apply py_getitem_len2.
Qed.

Lemma cell_guarded (r1 r2 r3 r4 : value) (i j : nat) :
  py_len r1 = Ok 2 -> py_len r2 = Ok 2 -> py_len r3 = Ok 2 -> py_len r4 = Ok 2 ->
  (i < 2)%nat -> (j < 2)%nat ->
  guarded (cell (VList [r1; r2]) (VList [r3; r4]) i j) = true.
Proof.
  intros H1 H2 H3 H4 Hi Hj. unfold cell.
  repeat (apply bind_guarded;
          [first [apply item_guarded; (assumption || lia)|apply py_mul_guarded]|intros ? _]).
  apply py_add_guarded.
Qed.

Lemma cell_step_guarded (name : string) (r1 r2 r3 r4 c : value) (i j : nat) :
  py_len r1 = Ok 2 -> py_len r2 = Ok 2 -> py_len r3 = Ok 2 -> py_len r4 = Ok 2 ->
  (i < 2)%nat -> (j < 2)%nat ->
  guarded (cell_step name (VList [r1; r2]) (VList [r3; r4]) i j c) = true.
Proof.
  intros H1 H2 H3 H4 Hi Hj. unfold cell_step.
  repeat (apply bind_guarded; [apply item_guarded; (assumption || lia)|intros ? _]).
  reflexivity.
Qed.

Lemma is_2x2_guarded (rowsA rowsB : list value) : guarded (is_2x2 rowsA rowsB) = true.
Proof.
  assert (H : forall rows, guarded (all_len2 rows) = true).
  { induction rows as [|row rows IH]; [reflexivity|]. simpl.
    apply bind_guarded; [destruct row; reflexivity|intros n _].
    destruct (n =? 2); [apply IH|reflexivity]. }
  unfold is_2x2. destruct (_ && _); [|reflexivity].
  apply bind_guarded; [apply H|intros [] _; [apply H|reflexivity]].
Qed.

(** X13: the checks of the evaluators do their job: whatever the request,
    [solve] never raises ZeroDivisionError (the total is tested before the
    division), never raises IndexError (rows are indexed only after the 2x2
    check) and never takes the root of a negative number (a sum of squares
    is not negative). *)
Theorem solve_guarded (req : SolveRequest) : guarded (solve req) = true.
Proof.
  unfold solve. destruct req as [t sid d]. cbn [topic data].
  destruct (decide (t = "probability")) as [_|_].
  { apply bind_guarded; [apply py_int_guarded|intros red _].
    apply bind_guarded; [apply py_int_guarded|intros blue _].
    destruct (Z.eqb_spec (red + blue) 0); [reflexivity|].
    apply bind_guarded; [now apply int_truediv_guarded|reflexivity]. }
  destruct (decide (t = "coordinate-geometry")) as [_|_].
  { do 4 (apply bind_guarded; [apply py_float_guarded|intros ? _]).
    apply bind_guarded; [apply float_pow2_guarded|intros dx2 Hx].
    apply bind_guarded; [apply float_pow2_guarded|intros dy2 Hy].
    apply bind_guarded.
    - apply float_pow_half_guarded; eapply float_pow2_sign; eassumption.
    - intros dist _.
      do 2 (apply bind_guarded; [apply float_pow2_guarded|intros ? _]). reflexivity. }
  destruct (decide (t = "calculus")) as [_|_].
  { do 2 (apply bind_guarded; [apply py_float_guarded|intros ? _]). reflexivity. }
  destruct (decide (t = "matrices")) as [_|_]; [|reflexivity].
  destruct (get _ "A" VNone) as [| | | | |rowsA|]; try reflexivity.
  destruct (get _ "B" VNone) as [| | | | |rowsB|]; try reflexivity.
  apply bind_guarded; [apply is_2x2_guarded|intros [] Hshape; [|reflexivity]].
  apply is_2x2_true in Hshape as (r1 & r2 & r3 & r4 & -> & -> & H1 & H2 & H3 & H4).
  cbn [negb].
  do 4 (apply bind_guarded; [apply cell_guarded; (assumption || lia)|intros ? _]).
  do 4 (apply bind_guarded; [apply cell_step_guarded; (assumption || lia)|intros ? _]).
  reflexivity.
Qed.

End Guards.

(** *** The catalog and the dispatch agree *)

Section CatalogDispatch.
Import Py App Spec.

Lemma bind_supported {A B} (m : result A) (k : A -> result B) :
  is_http_error m = false -> (forall a, is_unsupported (k a) = false) ->
  is_unsupported (m ≫= k) = false.
Proof. destruct m as [a|e]; simpl; [auto|]. destruct e; auto; discriminate. Qed.

Lemma py_int_no_http (v : value) : is_http_error (py_int v) = false.
Proof.
  destruct v; try reflexivity; simpl.
  - destruct (PyFloat.is_nan f); [reflexivity|]. destruct (PyFloat.is_inf f); reflexivity.
  - unfold int_of_string. destruct (take_sign _) as [neg body].
    destruct (digitpart body) as [[[n k] [|c rest]]|]; reflexivity.
Qed.

Lemma int_truediv_no_http (a b : Z) : is_http_error (int_truediv a b) = false.
Proof.
  unfold int_truediv. destruct (b =? 0); [reflexivity|].
  destruct (PyFloat.is_inf _); reflexivity.
Qed.

Lemma py_len_no_http (v : value) : is_http_error (py_len v) = false.
Proof. destruct v; reflexivity. Qed.

Lemma py_getitem_no_http (v : value) (i : nat) : is_http_error (py_getitem v i) = false.
Proof.
  destruct v; try reflexivity; simpl.
  - destruct (String.get i s); reflexivity.
  - destruct (l !! i); reflexivity.
Qed.

Lemma float_of_int_no_http (n : Z) : is_http_error (float_of_int n) = false.
Proof. unfold float_of_int. destruct (PyFloat.is_inf _); reflexivity. Qed.

Lemma py_mul_no_http (a b : value) : is_http_error (py_mul a b) = false.
Proof.
  destruct a as [| [] | | | | |], b as [| [] | | | | |]; try reflexivity; simpl;
    try (apply bind_no_http; [apply float_of_int_no_http|reflexivity]).
Qed.

Lemma py_add_no_http (a b : value) : is_http_error (py_add a b) = false.
Proof.
  destruct a as [| [] | | | | |], b as [| [] | | | | |]; try reflexivity; simpl;
    try (apply bind_no_http; [apply float_of_int_no_http|reflexivity]).
Qed.

Lemma item_no_http (M : value) (i j : nat) : is_http_error (item M i j) = false.
Proof.
  unfold item. apply bind_no_http; [apply py_getitem_no_http|intros row].
  apply py_getitem_no_http.
Qed.

Lemma cell_no_http (A B : value) (i j : nat) : is_http_error (cell A B i j) = false.
Proof.
  unfold cell.
  repeat (apply bind_no_http; [first [apply item_no_http|apply py_mul_no_http]|intros ?]).
  apply py_add_no_http.
Qed.

Lemma cell_step_no_http (name : string) (A B : value) (i j : nat) (c : value) :
  is_http_error (cell_step name A B i j c) = false.
Proof.
  unfold cell_step. repeat (apply bind_no_http; [apply item_no_http|intros ?]).
  reflexivity.
Qed.

Lemma is_2x2_no_http (rowsA rowsB : list value) :
  is_http_error (is_2x2 rowsA rowsB) = false.
Proof.
  assert (H : forall rows, is_http_error (all_len2 rows) = false).
  { induction rows as [|row rows IH]; [reflexivity|]. simpl.
    apply bind_no_http; [apply py_len_no_http|intros n].
    destruct (n =? 2); [apply IH|reflexivity]. }
  unfold is_2x2. destruct (_ && _); [|reflexivity].
  apply bind_no_http; [apply H|intros []; [apply H|reflexivity]].
Qed.

(** X14: the dispatch supports exactly the topics the catalog lists: for
    every topic of [GET /topics], [solve] never answers [Unsupported topic],
    whatever the payload; for every other topic it always does. *)
Theorem listed_iff_supported (t : string) (sid : option string)
  (d : option (gmap string value)) :
  is_unsupported (solve (solve_request t sid d)) =
    negb (bool_decide (t ∈ list_topics TOPICS)).
Proof.
  destruct (bool_decide_reflect (t ∈ list_topics TOPICS)) as [Hin|Hout]; cbn [negb].
  - unfold solve, solve_request. cbn [topic data].
    destruct (decide (t = "probability")) as [_|?].
    { do 2 (apply bind_supported; [apply py_int_no_http|intros ?]).
      destruct (_ =? 0); [reflexivity|].
      apply bind_supported; [apply int_truediv_no_http|reflexivity]. }
    destruct (decide (t = "coordinate-geometry")) as [_|?].
    { repeat (apply bind_supported;
              [first [apply py_float_no_http|apply float_pow2_no_http
                     |apply float_pow_half_no_http]|intros ?]).
      reflexivity. }
    destruct (decide (t = "calculus")) as [_|?].
    { do 2 (apply bind_supported; [apply py_float_no_http|intros ?]). reflexivity. }
    destruct (decide (t = "matrices")) as [_|?].
    { destruct (get _ "A" VNone) as [| | | | |rowsA|]; try reflexivity.
      destruct (get _ "B" VNone) as [| | | | |rowsB|]; try reflexivity.
      apply bind_supported; [apply is_2x2_no_http|intros []; [|reflexivity]].
      cbn [negb].
      do 4 (apply bind_supported; [apply cell_no_http|intros ?]).
      do 4 (apply bind_supported; [apply cell_step_no_http|intros ?]).
      reflexivity. }
    unfold list_topics in Hin. simpl in Hin.
    rewrite !elem_of_cons, elem_of_nil in Hin. intuition congruence.
  - unfold solve, solve_request. cbn [topic data].
    assert (Hk : t ∉ known_topics) by exact Hout.
    unfold known_topics in Hk. rewrite !not_elem_of_cons in Hk. destruct Hk as (?&?&?&?&_).
    repeat (destruct (decide (t = _)) as [?|_]; [congruence|]). reflexivity.
Qed.

(** X15: every sample of the catalog can be resubmitted: for each topic of
    the catalog and each of its samples, [solve] on that topic with the
    sample's data (and the sample's id as [sample_id]) succeeds. *)
Theorem catalog_samples_solvable (t : string) (b : bucket) (smp : sample) :
  lookup_topic TOPICS t = Some b -> smp ∈ samples b ->
  succeeds (solve (solve_request t (Some (id smp)) (payload (sample_data smp)))) = true.
Proof.
  intros Hb Hs. simpl in Hb.
  repeat match type of Hb with
         | context [decide (?k = t)] =>
             destruct (decide (k = t)) as [<-|_];
             [injection Hb as <-; simpl in Hs;
              apply list_elem_of_singleton in Hs as ->; vm_compute; reflexivity|]
         end.
  discriminate.
Qed.

Lemma catalog_samples_solvable_witness :
  succeeds (solve (solve_request "coordinate-geometry" (Some "coord-1")
                     (points (VInt 1) (VInt 2) (VInt 4) (VInt 6)))) = true.
Proof.
  apply (catalog_samples_solvable "coordinate-geometry"
           {| description := "Distance, midpoint, gradients, equation of a line.";
              samples := [
                {| id := "coord-1";
                   question := "Find the distance between (1,2) and (4,6).";
                   sample_data := [("x1", VInt 1); ("y1", VInt 2); ("x2", VInt 4); ("y2", VInt 6)];
                   expected := "5" |} ] |}
           {| id := "coord-1";
              question := "Find the distance between (1,2) and (4,6).";
              sample_data := [("x1", VInt 1); ("y1", VInt 2); ("x2", VInt 4); ("y2", VInt 6)];
              expected := "5" |});
    [reflexivity|apply list_elem_of_singleton; reflexivity].
Defined.


End CatalogDispatch.

(** *** Counts sent as text *)

Section TextCounts.
Import Py App Spec.













End TextCounts.
